(** * Mock op20pt32.dll: the J2534 write/read path of [op20pt32.c]

    A shallow embedding of [tools/mock_j2534/op20pt32.c]: the PASSTHRU_MSG
    structure, [build_can_response], the three statics that make up the
    pending-response mailbox, [PassThruWriteMsgs] and [PassThruReadMsgs].

    Machine integers are [Z]; a narrowing cast is written as the explicit
    wrap-around ([to_BYTE], [to_WORD], [to_DWORD]).  The 4128-byte [Data]
    array is a [list BYTE]; array stores are stdpp's list insert.  The
    statics are threaded as an explicit [mock_state], and every [log_msg]
    call appends one structured entry (the format arguments, without the
    text) to the state's trace.  Sequences of calls of the two entry points
    are lists of [call], run by [step]. *)

From Stdlib Require Import ZArith Lia Bool.
From stdpp Require Import base list.

Local Open Scope Z_scope.

(** ** Machine types and constants *)

Definition BYTE := Z.
Definition WORD := Z.
Definition DWORD := Z.

Definition to_BYTE (x : Z) : BYTE := x mod 256.
Definition to_WORD (x : Z) : WORD := x mod 65536.
Definition to_DWORD (x : Z) : DWORD := x mod 4294967296.

Definition is_BYTE (x : Z) : Prop := 0 <= x < 256.
Definition is_DWORD (x : Z) : Prop := 0 <= x < 4294967296.

Definition STATUS_NOERROR : Z := 0.
Definition STATUS_ERR_FAILED : Z := 0x1F.
Definition ISO15765 : DWORD := 6.

(** Number of cells of [BYTE Data[4128]]. *)
Definition DATA_LEN : nat := 4128.

(** ** PASSTHRU_MSG *)

Record PASSTHRU_MSG := mkMsg {
  ProtocolID : DWORD;
  RxStatus : DWORD;
  TxFlags : DWORD;
  Timestamp : DWORD;
  DataSize : DWORD;
  ExtraDataIndex : DWORD;
  Data : list BYTE
}.

(** [sizeof(PASSTHRU_MSG)]: six DWORD fields and the data array. *)
Definition sizeof_PASSTHRU_MSG : DWORD := 6 * 4 + Z.of_nat DATA_LEN.

(** A message as the C type admits it: every field in range and the
    array with its 4128 byte cells. *)
Definition wf_msg (m : PASSTHRU_MSG) : Prop :=
  is_DWORD (DataSize m) /\ length (Data m) = DATA_LEN /\ Forall is_BYTE (Data m).

(** [data[i]].  The offsets the code reads (5 to 8, and below 32 when
    logging) lie inside the 4128 cells whatever [DataSize] says. *)
Definition byte_at (data : list BYTE) (i : nat) : BYTE := default 0 (data !! i).

(** [memset(msg, 0, sizeof(PASSTHRU_MSG))]. *)
Definition memset_zero : PASSTHRU_MSG :=
  mkMsg 0 0 0 0 0 0 (replicate DATA_LEN 0).

Definition set_ProtocolID (v : DWORD) (m : PASSTHRU_MSG) : PASSTHRU_MSG :=
  mkMsg v (RxStatus m) (TxFlags m) (Timestamp m) (DataSize m) (ExtraDataIndex m) (Data m).
Definition set_RxStatus (v : DWORD) (m : PASSTHRU_MSG) : PASSTHRU_MSG :=
  mkMsg (ProtocolID m) v (TxFlags m) (Timestamp m) (DataSize m) (ExtraDataIndex m) (Data m).
Definition set_DataSize (v : DWORD) (m : PASSTHRU_MSG) : PASSTHRU_MSG :=
  mkMsg (ProtocolID m) (RxStatus m) (TxFlags m) (Timestamp m) v (ExtraDataIndex m) (Data m).
Definition set_Data (d : list BYTE) (m : PASSTHRU_MSG) : PASSTHRU_MSG :=
  mkMsg (ProtocolID m) (RxStatus m) (TxFlags m) (Timestamp m) (DataSize m) (ExtraDataIndex m) d.

(** [memcpy(dst + off, src, n)] on the data array. *)
Definition memcpy_at (dst : list BYTE) (off : nat) (src : list BYTE) (n : nat) : list BYTE :=
  list_inserts off (take n src) dst.

(** [build_can_response(msg, uds_payload, uds_len)].  The [memset] wipes
    whatever [*msg] held, so the result depends on the payload only. *)
Definition build_can_response (uds_payload : list BYTE) (uds_len : nat) : PASSTHRU_MSG :=
  let msg := memset_zero in
  let msg := set_ProtocolID ISO15765 msg in
  let msg := set_Data (<[0%nat := 0x00]> (Data msg)) msg in
  let msg := set_Data (<[1%nat := 0x00]> (Data msg)) msg in
  let msg := set_Data (<[2%nat := 0x07]> (Data msg)) msg in
  let msg := set_Data (<[3%nat := 0xE8]> (Data msg)) msg in
  let msg := set_Data (memcpy_at (Data msg) 4 uds_payload uds_len) msg in
  let msg := set_DataSize (to_DWORD (4 + Z.of_nat uds_len)) msg in
  set_RxStatus 0 msg.

(** ** The trace written by [log_msg] and [log_bytes] *)

Inductive direction := TX | RX.

Inductive log_entry :=
  | LogBytes (prefix : direction) (len : DWORD) (shown : list BYTE)
  | LogSessionControl (uds_sf : BYTE)
  | LogRequestSeed
  | LogSeedResponse
  | LogSendKey
  | LogWriteSessionKey (kh kl : BYTE) (key : WORD)
  | LogKey16 (key : WORD)
  | LogReadFormula (read_key : DWORD) (matches : bool)
  | LogRequestDownload
  | LogUnknownService (uds_svc : BYTE).

(** ** The statics *)

Record mock_state := mkState {
  pending_response : PASSTHRU_MSG;
  pending_response_len : DWORD;
  has_pending : Z;
  trace : list log_entry
}.

(** The statics as the loader initialises them. *)
Definition initial_state : mock_state := mkState memset_zero 0 0 [].

Definition log_msg (e : log_entry) (st : mock_state) : mock_state :=
  mkState (pending_response st) (pending_response_len st) (has_pending st)
          (trace st ++ [e]).

(** [log_bytes(prefix, data, len)]: the prefix and the length, then
    [data[i]] for [i < len && i < 32]; the [log_msg] calls of one
    [log_bytes] are gathered into a single entry. *)
Definition log_bytes (prefix : direction) (data : list BYTE) (len : DWORD)
    (st : mock_state) : mock_state :=
  log_msg (LogBytes prefix len (take (Z.to_nat (Z.min len 32)) data)) st.

(** The three statements that end every rule of [PassThruWriteMsgs]:
    [build_can_response((PASSTHRU_MSG * )pending_response, resp, n);
     pending_response_len = sizeof(PASSTHRU_MSG); has_pending = 1;]. *)
Definition store (resp : list BYTE) (n : nat) (st : mock_state) : mock_state :=
  mkState (build_can_response resp n) sizeof_PASSTHRU_MSG 1 (trace st).

(** ** PassThruWriteMsgs *)

(** [pMsg] and [pNumMsgs] are pointers: [None] is NULL.  Only [pMsg[0]]
    is ever read, so the array is represented by its first element.
    [ChannelID] and [Timeout] are not used by the body and are left out. *)
Definition PassThruWriteMsgs (st : mock_state)
    (pMsg : option PASSTHRU_MSG) (pNumMsgs : option DWORD) : mock_state * Z :=
  match pMsg, pNumMsgs with
  | Some m, Some num =>
    if num =? 0 then (st, STATUS_NOERROR) else
    let data := Data m in
    let len := DataSize m in
    let st := log_bytes TX data len st in
    if 6 <=? len then
      let uds_svc := byte_at data 5 in
      let uds_sf := byte_at data 6 in
      if uds_svc =? 0x10 then
        let st := log_msg (LogSessionControl uds_sf) st in
        (store [0x02; 0x50; uds_sf] 3 st, STATUS_NOERROR)
      else if (uds_svc =? 0x27) && (uds_sf =? 0x03) then
        let st := log_msg LogRequestSeed st in
        let st := log_msg LogSeedResponse st in
        (store [0x04; 0x67; 0x03; 0x12; 0x34] 5 st, STATUS_NOERROR)
      else if (uds_svc =? 0x27) && (uds_sf =? 0x04) && (8 <=? len) then
        let kh := byte_at data 7 in
        let kl := byte_at data 8 in
        let key := to_WORD (Z.lor (Z.shiftl kh 8) kl) in
        let st := log_msg LogSendKey st in
        let st := log_msg (LogWriteSessionKey kh kl key) st in
        let st := log_msg (LogKey16 key) st in
        let read_key := Z.land (to_DWORD (to_DWORD (0x1234 * 0x4081) + 0x1234)) 0xFFFF in
        let st := log_msg (LogReadFormula read_key (key =? to_WORD read_key)) st in
        (store [0x02; 0x67; 0x04] 3 st, STATUS_NOERROR)
      else if uds_svc =? 0x34 then
        let st := log_msg LogRequestDownload st in
        (store [0x03; 0x74; 0x20; 0x0F] 4 st, STATUS_NOERROR)
      else
        let st := log_msg (LogUnknownService uds_svc) st in
        (store [0x02; to_BYTE (uds_svc + 0x40); uds_sf] 3 st, STATUS_NOERROR)
    else (st, STATUS_NOERROR)
  | _, _ => (st, STATUS_NOERROR)
  end.

(** ** PassThruReadMsgs *)

(** What the call leaves behind: the statics, the caller's [pMsg[0]] and
    [*pNumMsgs] (unchanged where the code does not write them), and the
    return value. *)
Record read_result := mkRead {
  rd_state : mock_state;
  rd_msg : option PASSTHRU_MSG;
  rd_num : option DWORD;
  rd_ret : Z
}.

Definition clear_pending (st : mock_state) : mock_state :=
  mkState (pending_response st) (pending_response_len st) 0 (trace st).

Definition PassThruReadMsgs (st : mock_state)
    (pMsg : option PASSTHRU_MSG) (pNumMsgs : option DWORD) : read_result :=
  match pMsg, pNumMsgs with
  | Some _, Some num =>
    if negb (has_pending st =? 0) && (0 <? num) then
      let m := pending_response st in
      let st := log_bytes RX (Data m) (DataSize m) st in
      let st := clear_pending st in
      mkRead st (Some m) (Some 1) STATUS_NOERROR
    else
      mkRead st pMsg (Some 0) STATUS_NOERROR
  | _, _ => mkRead st pMsg pNumMsgs STATUS_NOERROR
  end.

(** ** Observations used by the statements *)

(** The mailbox: the three statics without the trace. *)
Definition mailbox (st : mock_state) : PASSTHRU_MSG * DWORD * Z :=
  (pending_response st, pending_response_len st, has_pending st).

(** The diagnostic bytes of a frame: what follows the four bytes of CAN
    identifier, up to [DataSize]. *)
Definition uds_payload_of (m : PASSTHRU_MSG) : list BYTE :=
  take (Z.to_nat (DataSize m - 4)) (drop 4 (Data m)).

(** A caller's message: the given bytes at the start of the data array,
    zeroes behind them, and the [DataSize] the caller declares. *)
Definition request_msg (bytes : list BYTE) (len : DWORD) : PASSTHRU_MSG :=
  mkMsg ISO15765 0 0 0 len 0 (bytes ++ replicate (DATA_LEN - length bytes) 0).

(** No dedicated rule of [PassThruWriteMsgs] applies to the frame: the
    conditions of the four [if]s all fail. *)
Definition unmatched (m : PASSTHRU_MSG) : Prop :=
  let uds_svc := byte_at (Data m) 5 in
  let uds_sf := byte_at (Data m) 6 in
  uds_svc <> 0x10 /\
  ~ (uds_svc = 0x27 /\ uds_sf = 0x03) /\
  ~ (uds_svc = 0x27 /\ uds_sf = 0x04 /\ 8 <= DataSize m) /\
  uds_svc <> 0x34.

(** The shape of a positive answer to service [uds_svc]: the first byte
    counts the diagnostic bytes behind it, and the response service
    identifier is the request's plus 0x40, as a byte. *)
Definition positive_response_to (uds_svc : BYTE) (resp : list BYTE) : Prop :=
  resp !! 0%nat = Some (Z.of_nat (length resp) - 1) /\
  resp !! 1%nat = Some (to_BYTE (uds_svc + 0x40)).

(** A UDS negative response as it would sit in a frame: the length byte
    03, then 7F, the rejected service and a response code (NRC). *)
Definition negative_response (resp : list BYTE) : Prop :=
  exists sid nrc : BYTE, resp = [0x03; 0x7F; sid; nrc].

(** ** Sequences of calls *)

(** One call of an entry point with its arguments. *)
Inductive call :=
  | CallWrite (pMsg : option PASSTHRU_MSG) (pNumMsgs : option DWORD)
  | CallRead (pMsg : option PASSTHRU_MSG) (pNumMsgs : option DWORD).

(** The statics after the call. *)
Definition step (st : mock_state) (c : call) : mock_state :=
  match c with
  | CallWrite pMsg pNumMsgs => fst (PassThruWriteMsgs st pMsg pNumMsgs)
  | CallRead pMsg pNumMsgs => rd_state (PassThruReadMsgs st pMsg pNumMsgs)
  end.

Definition run (st : mock_state) (cs : list call) : mock_state :=
  fold_left step cs st.

(** The messages a caller passes are messages of the C type. *)
Definition wf_call (c : call) : Prop :=
  match c with
  | CallWrite (Some m) _ => wf_msg m
  | _ => True
  end.

(** A write that reaches the rule chain: both pointers set, a count
    other than zero, a frame of six bytes or more. *)
Definition accepted (c : call) : bool :=
  match c with
  | CallWrite (Some m) (Some num) => negb (num =? 0) && (6 <=? DataSize m)
  | _ => false
  end.


(** A read after which the caller holds a message: it passed both
    pointers and finds the count set to one. *)
Definition delivered (st : mock_state) (c : call) : bool :=
  match c with
  | CallRead (Some buf) (Some num) =>
    match rd_num (PassThruReadMsgs st (Some buf) (Some num)) with
    | Some n => n =? 1
    | None => false
    end
  | _ => false
  end.


(** The messages the reads of the sequence hand to the caller, in order. *)
Fixpoint handed_out (st : mock_state) (cs : list call) : list PASSTHRU_MSG :=
  match cs with
  | [] => []
  | c :: cs' =>
    match c with
    | CallRead pMsg pNumMsgs =>
      if delivered st c
      then option_list (rd_msg (PassThruReadMsgs st pMsg pNumMsgs))
      else []
    | CallWrite _ _ => []
    end ++ handed_out (step st c) cs'
  end.

(** A dialogue: each request is written alone and read back at once into
    the buffer that goes with it. *)
Fixpoint exchanges (xs : list (PASSTHRU_MSG * PASSTHRU_MSG)) : list call :=
  match xs with
  | [] => []
  | (m, buf) :: xs' =>
    CallWrite (Some m) (Some 1) :: CallRead (Some buf) (Some 1) :: exchanges xs'
  end.

(** The answer to a request on its own: what one write of it leaves in
    [pending_response], starting from the initial statics. *)
Definition response_to (m : PASSTHRU_MSG) : PASSTHRU_MSG :=
  pending_response (fst (PassThruWriteMsgs initial_state (Some m) (Some 1))).

(** The frames the rules build: a well-formed message for protocol
    ISO15765 from CAN identifier 0x7E8, seven to nine bytes long, whose
    length byte counts the diagnostic bytes behind it, and zero from
    [DataSize] to the end of the array. *)
Definition response_frame (m : PASSTHRU_MSG) : Prop :=
  wf_msg m /\
  ProtocolID m = ISO15765 /\ RxStatus m = 0 /\
  take 4 (Data m) = [0x00; 0x00; 0x07; 0xE8] /\
  7 <= DataSize m <= 9 /\
  byte_at (Data m) 4 = DataSize m - 5 /\
  (forall i : nat, (Z.to_nat (DataSize m) <= i < DATA_LEN)%nat -> byte_at (Data m) i = 0).

Definition mailbox_inv (st : mock_state) : Prop :=
  (has_pending st = 0 \/ has_pending st = 1) /\
  (pending_response_len st = 0 \/ pending_response_len st = sizeof_PASSTHRU_MSG) /\
  (has_pending st = 1 -> response_frame (pending_response st)).

(** * Basic facts *)

Lemma byte_at_is_BYTE (data : list BYTE) (i : nat) :
  Forall is_BYTE data -> is_BYTE (byte_at data i).
Proof.
  intros Hall. unfold byte_at.
  destruct (data !! i) as [b|] eqn:Hb; simpl.
  - eapply Forall_lookup_1; eauto.
  - unfold is_BYTE; lia.
Qed.

Lemma wf_request_msg (bytes : list BYTE) (len : DWORD) :
  Forall is_BYTE bytes -> (length bytes <= DATA_LEN)%nat -> is_DWORD len ->
  wf_msg (request_msg bytes len).
Proof.
  intros Hb Hl Hd. unfold wf_msg, request_msg; simpl.
  split; [exact Hd|]. split.
  - rewrite length_app, length_replicate. lia.
  - apply Forall_app. split; [exact Hb|].
    apply Forall_replicate. unfold is_BYTE; lia.
Qed.

(** [(kh << 8) | kl] is [kh * 256 + kl] on bytes, and fits a WORD. *)
Lemma key_of_bytes (kh kl : BYTE) :
  is_BYTE kh -> is_BYTE kl ->
  to_WORD (Z.lor (Z.shiftl kh 8) kl) = kh * 256 + kl.
Proof.
  unfold is_BYTE, to_WORD. intros Hh Hl.
  assert (Hdisj : Z.land (Z.shiftl kh 8) kl = 0).
  { apply Z.bits_inj'. intros n Hn.
    rewrite Z.land_spec, Z.bits_0.
    destruct (Z.ltb_spec n 8) as [Hlt|Hge].
    - rewrite Z.shiftl_spec_low by lia. reflexivity.
    - assert (Hk : Z.testbit kl n = false).
      { destruct (Z.eq_dec kl 0) as [->|Hnz]; [apply Z.bits_0|].
        apply Z.bits_above_log2; [lia|].
        assert (Z.log2 kl < 8) by (apply Z.log2_lt_pow2; lia). lia. }
      rewrite Hk. apply andb_false_r. }
  rewrite <- Z.lxor_lor by exact Hdisj.
  rewrite <- Z.add_nocarry_lxor by exact Hdisj.
  rewrite Z.shiftl_mul_pow2 by lia.
  change (2 ^ 8) with 256.
  apply Z.mod_small. lia.
Qed.

(** The reference value of the read-session formula. *)
Lemma read_key_value :
  Z.land (to_DWORD (to_DWORD (0x1234 * 0x4081) + 0x1234)) 0xFFFF
  = (0x1234 * 0x4081 + 0x1234) mod 65536.
Proof. reflexivity. Qed.

(** ** One equation per path of PassThruWriteMsgs *)

Section WritePaths.
Variable st : mock_state.
Variable m : PASSTHRU_MSG.
Variable num : DWORD.
Hypothesis Hnum : num <> 0.

Let data := Data m.
Let len := DataSize m.
Let uds_svc := byte_at data 5.
Let uds_sf := byte_at data 6.
Let logged := log_bytes TX data len st.

Lemma write_short :
  len < 6 ->
  PassThruWriteMsgs st (Some m) (Some num) = (logged, STATUS_NOERROR).
Proof.
  intros Hlen. unfold PassThruWriteMsgs.
  destruct (Z.eqb_spec num 0) as [|_]; [contradiction|].
  fold data len. destruct (Z.leb_spec 6 len); [lia|reflexivity].
Qed.

Lemma write_session :
  6 <= len -> uds_svc = 0x10 ->
  PassThruWriteMsgs st (Some m) (Some num)
  = (store [0x02; 0x50; uds_sf] 3 (log_msg (LogSessionControl uds_sf) logged),
     STATUS_NOERROR).
Proof.
  intros Hlen Hsvc. unfold PassThruWriteMsgs.
  destruct (Z.eqb_spec num 0) as [|_]; [contradiction|].
  fold data len. destruct (Z.leb_spec 6 len); [|lia].
  fold uds_svc uds_sf. rewrite Hsvc. reflexivity.
Qed.

Lemma write_requestSeed :
  6 <= len -> uds_svc = 0x27 -> uds_sf = 0x03 ->
  PassThruWriteMsgs st (Some m) (Some num)
  = (store [0x04; 0x67; 0x03; 0x12; 0x34] 5
       (log_msg LogSeedResponse (log_msg LogRequestSeed logged)),
     STATUS_NOERROR).
Proof.
  intros Hlen Hsvc Hsf. unfold PassThruWriteMsgs.
  destruct (Z.eqb_spec num 0) as [|_]; [contradiction|].
  fold data len. destruct (Z.leb_spec 6 len); [|lia].
  fold uds_svc uds_sf. rewrite Hsvc, Hsf. reflexivity.
Qed.

Lemma write_sendKey :
  8 <= len -> uds_svc = 0x27 -> uds_sf = 0x04 ->
  let kh := byte_at data 7 in
  let kl := byte_at data 8 in
  let key := to_WORD (Z.lor (Z.shiftl kh 8) kl) in
  let read_key := Z.land (to_DWORD (to_DWORD (0x1234 * 0x4081) + 0x1234)) 0xFFFF in
  PassThruWriteMsgs st (Some m) (Some num)
  = (store [0x02; 0x67; 0x04] 3
       (log_msg (LogReadFormula read_key (key =? to_WORD read_key))
         (log_msg (LogKey16 key)
           (log_msg (LogWriteSessionKey kh kl key)
             (log_msg LogSendKey logged)))),
     STATUS_NOERROR).
Proof.
  intros Hlen Hsvc Hsf. unfold PassThruWriteMsgs.
  destruct (Z.eqb_spec num 0) as [|_]; [contradiction|].
  fold data len. destruct (Z.leb_spec 6 len); [|lia].
  fold uds_svc uds_sf. rewrite Hsvc, Hsf.
  destruct (Z.leb_spec 8 len); [|lia]. reflexivity.
Qed.

Lemma write_download :
  6 <= len -> uds_svc = 0x34 ->
  PassThruWriteMsgs st (Some m) (Some num)
  = (store [0x03; 0x74; 0x20; 0x0F] 4 (log_msg LogRequestDownload logged),
     STATUS_NOERROR).
Proof.
  intros Hlen Hsvc. unfold PassThruWriteMsgs.
  destruct (Z.eqb_spec num 0) as [|_]; [contradiction|].
  fold data len. destruct (Z.leb_spec 6 len); [|lia].
  fold uds_svc uds_sf. rewrite Hsvc. reflexivity.
Qed.

Lemma write_generic :
  6 <= len -> unmatched m ->
  PassThruWriteMsgs st (Some m) (Some num)
  = (store [0x02; to_BYTE (uds_svc + 0x40); uds_sf] 3
       (log_msg (LogUnknownService uds_svc) logged),
     STATUS_NOERROR).
Proof.
  intros Hlen (H10 & Hseed & Hkey & H34). unfold PassThruWriteMsgs.
  fold data len uds_svc uds_sf in H10, Hseed, Hkey, H34.
  destruct (Z.eqb_spec num 0) as [|_]; [contradiction|].
  fold data len. destruct (Z.leb_spec 6 len); [|lia].
  fold uds_svc uds_sf.
  destruct (Z.eqb_spec uds_svc 0x10); [contradiction|].
  destruct (Z.eqb_spec uds_svc 0x27), (Z.eqb_spec uds_sf 0x03),
    (Z.eqb_spec uds_sf 0x04), (Z.leb_spec 8 len),
    (Z.eqb_spec uds_svc 0x34); simpl; try reflexivity; try tauto; try lia.
Qed.

(** The rules are exhaustive on frames of six bytes or more. *)
Lemma rule_cases :
  uds_svc = 0x10 \/ (uds_svc = 0x27 /\ uds_sf = 0x03) \/
  (uds_svc = 0x27 /\ uds_sf = 0x04 /\ 8 <= len) \/ uds_svc = 0x34 \/ unmatched m.
Proof.
  unfold unmatched. fold data len uds_svc uds_sf.
  destruct (Z.eq_dec uds_svc 0x10), (Z.eq_dec uds_svc 0x27),
    (Z.eq_dec uds_sf 0x03), (Z.eq_dec uds_sf 0x04),
    (Z_le_dec 8 len), (Z.eq_dec uds_svc 0x34); tauto.
Qed.
End WritePaths.

(** ** The frame codec on the response side *)

Lemma build_can_response_Data (resp : list BYTE) :
  (length resp <= DATA_LEN - 4)%nat ->
  Data (build_can_response resp (length resp))
  = [0x00; 0x00; 0x07; 0xE8] ++ resp ++ replicate (DATA_LEN - 4 - length resp) 0.
Proof.
  intros Hlen.
  unfold build_can_response, memcpy_at, set_RxStatus, set_DataSize, set_Data,
    set_ProtocolID, memset_zero.
  cbn [Data].
  rewrite firstn_all.
  replace DATA_LEN with (4 + (length resp + (DATA_LEN - 4 - length resp)))%nat at 1
    by (unfold DATA_LEN in *; lia).
  rewrite (replicate_add 4), replicate_add.
  cbn [replicate app].
  cbn [insert list_insert].
  rewrite !list_inserts_cons.
  rewrite list_inserts_0_r by (rewrite length_replicate; reflexivity).
  reflexivity.
Qed.

Lemma build_can_response_DataSize (resp : list BYTE) (n : nat) :
  (n <= DATA_LEN - 4)%nat ->
  DataSize (build_can_response resp n) = 4 + Z.of_nat n.
Proof.
  intros Hn. unfold build_can_response; cbn [DataSize set_RxStatus set_DataSize].
  unfold to_DWORD. apply Z.mod_small. unfold DATA_LEN in Hn. lia.
Qed.

(** Decoding a built response gives back the bytes the rule supplied. *)
Lemma uds_payload_of_build (resp : list BYTE) :
  (length resp <= DATA_LEN - 4)%nat ->
  uds_payload_of (build_can_response resp (length resp)) = resp.
Proof.
  intros Hlen. unfold uds_payload_of.
  rewrite build_can_response_DataSize, build_can_response_Data by exact Hlen.
  replace (Z.to_nat (4 + Z.of_nat (length resp) - 4)) with (length resp) by lia.
  cbn [app drop]. apply take_app_length.
Qed.

(** ** One equation per path of PassThruReadMsgs *)

Lemma read_pending (st : mock_state) (buf : PASSTHRU_MSG) (num : DWORD) :
  has_pending st <> 0 -> 0 < num ->
  PassThruReadMsgs st (Some buf) (Some num)
  = mkRead
      (clear_pending
         (log_bytes RX (Data (pending_response st))
            (DataSize (pending_response st)) st))
      (Some (pending_response st)) (Some 1) STATUS_NOERROR.
Proof.
  intros Hp Hn. unfold PassThruReadMsgs.
  destruct (Z.eqb_spec (has_pending st) 0); [contradiction|].
  destruct (Z.ltb_spec 0 num); [reflexivity|lia].
Qed.

Lemma read_nothing (st : mock_state) (buf : PASSTHRU_MSG) (num : DWORD) :
  has_pending st = 0 \/ num <= 0 ->
  PassThruReadMsgs st (Some buf) (Some num)
  = mkRead st (Some buf) (Some 0) STATUS_NOERROR.
Proof.
  intros H. unfold PassThruReadMsgs.
  destruct (Z.eqb_spec (has_pending st) 0), (Z.ltb_spec 0 num);
    simpl; try reflexivity. lia.
Qed.

(** Neither call ever returns anything but STATUS_NOERROR. *)
Lemma write_returns_NOERROR st pMsg pNumMsgs :
  snd (PassThruWriteMsgs st pMsg pNumMsgs) = STATUS_NOERROR.
Proof.
  unfold PassThruWriteMsgs.
  destruct pMsg as [m|], pNumMsgs as [num|]; try reflexivity.
  repeat match goal with
         | |- context [if ?c then _ else _] => destruct c
         end; reflexivity.
Qed.

Lemma read_returns_NOERROR st pMsg pNumMsgs :
  rd_ret (PassThruReadMsgs st pMsg pNumMsgs) = STATUS_NOERROR.
Proof.
  unfold PassThruReadMsgs.
  destruct pMsg, pNumMsgs; try reflexivity.
  destruct (_ && _); reflexivity.
Qed.

Lemma byte_at_take (d k : list BYTE) (n i : nat) :
  take n d = k -> (i < n)%nat -> byte_at d i = byte_at k i.
Proof.
  intros <- Hi. unfold byte_at. rewrite lookup_take_lt by exact Hi. reflexivity.
Qed.

Lemma trace_store resp n st : trace (store resp n st) = trace st.
Proof. reflexivity. Qed.

Lemma trace_log_msg e st : trace (log_msg e st) = trace st ++ [e].
Proof. reflexivity. Qed.

Lemma mailbox_log_msg e st : mailbox (log_msg e st) = mailbox st.
Proof. reflexivity. Qed.

Lemma mailbox_store resp n st :
  mailbox (store resp n st) = (build_can_response resp n, sizeof_PASSTHRU_MSG, 1).
Proof. reflexivity. Qed.

(** What a write of a frame of six bytes or more leaves in the mailbox
    does not depend on the statics before the call: an unread response is
    overwritten. *)
Lemma write_overwrites_pending (st st0 : mock_state) (m : PASSTHRU_MSG) (num : DWORD) :
  num <> 0 -> 6 <= DataSize m ->
  mailbox (fst (PassThruWriteMsgs st (Some m) (Some num)))
  = mailbox (fst (PassThruWriteMsgs st0 (Some m) (Some num))).
Proof.
  intros Hnum Hlen.
  destruct (rule_cases m) as [H10|[[H27 H03]|[(H27 & H04 & H8)|[H34|Hun]]]].
  - rewrite !write_session by assumption. reflexivity.
  - rewrite !write_requestSeed by assumption. reflexivity.
  - rewrite !write_sendKey by assumption. reflexivity.
  - rewrite !write_download by assumption. reflexivity.
  - rewrite !write_generic by assumption. reflexivity.
Qed.

(** * The claims *)

(** ** Mailbox *)

(** C4.  The mailbox holds one response and the last store wins: after
    [store R1; store R2] a read with a positive count hands out the frame
    built from [R2]; the statics are what [store R2] alone would have left,
    whatever [R1] was, so [R1] cannot be recovered; and the read after that
    finds nothing. *)
Theorem mailbox_last_write_wins
    (st : mock_state) (R1 R2 : list BYTE) (n1 n2 : nat)
    (buf buf' : PASSTHRU_MSG) (num num' : DWORD) :
  0 < num ->
  let st2 := store R2 n2 (store R1 n1 st) in
  let r := PassThruReadMsgs st2 (Some buf) (Some num) in
  let r' := PassThruReadMsgs (rd_state r) (Some buf') (Some num') in
  rd_msg r = Some (build_can_response R2 n2) /\
  rd_num r = Some 1 /\
  (forall (R1' : list BYTE) (n1' : nat), store R2 n2 (store R1' n1' st) = st2) /\
  st2 = store R2 n2 st /\
  has_pending (rd_state r) = 0 /\
  rd_num r' = Some 0 /\ rd_msg r' = Some buf'.
Proof.
  intros Hnum st2 r r'.
  assert (Hr : r = mkRead
            (clear_pending
               (log_bytes RX (Data (pending_response st2))
                  (DataSize (pending_response st2)) st2))
            (Some (pending_response st2)) (Some 1) STATUS_NOERROR).
  { apply read_pending; [discriminate|exact Hnum]. }
  subst r'. rewrite Hr. cbn [rd_msg rd_num rd_state].
  rewrite read_nothing by (left; reflexivity).
  repeat split.
Qed.

Lemma mailbox_last_write_wins_witness :
  let st2 := store [0x02; 0x67; 0x04] 3 (store [0x02; 0x50; 0x03] 3 initial_state) in
  let r := PassThruReadMsgs st2 (Some memset_zero) (Some 1) in
  let r' := PassThruReadMsgs (rd_state r) (Some memset_zero) (Some 1) in
  rd_msg r = Some (build_can_response [0x02; 0x67; 0x04] 3) /\
  rd_num r = Some 1 /\
  (forall (R1' : list BYTE) (n1' : nat),
      store [0x02; 0x67; 0x04] 3 (store R1' n1' initial_state) = st2) /\
  st2 = store [0x02; 0x67; 0x04] 3 initial_state /\
  has_pending (rd_state r) = 0 /\
  rd_num r' = Some 0 /\ rd_msg r' = Some memset_zero.
Proof.
  apply (mailbox_last_write_wins initial_state [0x02; 0x50; 0x03]
           [0x02; 0x67; 0x04] 3 3 memset_zero memset_zero 1 1).
  lia.
Defined.

(** C10.  A read that asks for zero messages while a response is pending
    leaves the statics as they were, sets the caller's count to zero and
    returns STATUS_NOERROR; a later read with a positive count still gets
    that response. *)
Theorem read_zero_count_keeps_pending
    (st : mock_state) (buf buf' : PASSTHRU_MSG) (num : DWORD) :
  has_pending st <> 0 -> 0 < num ->
  let r := PassThruReadMsgs st (Some buf) (Some 0) in
  let r' := PassThruReadMsgs (rd_state r) (Some buf') (Some num) in
  rd_state r = st /\ has_pending (rd_state r) <> 0 /\
  rd_num r = Some 0 /\ rd_msg r = Some buf /\ rd_ret r = STATUS_NOERROR /\
  rd_msg r' = Some (pending_response st) /\ rd_num r' = Some 1.
Proof.
  intros Hp Hnum r r'. subst r'.
  assert (Hr : r = mkRead st (Some buf) (Some 0) STATUS_NOERROR).
  { apply read_nothing. right. lia. }
  rewrite Hr. cbn [rd_state rd_num rd_msg rd_ret].
  rewrite read_pending by assumption.
  repeat split; assumption.
Qed.

Lemma read_zero_count_keeps_pending_witness :
  let st := store [0x02; 0x50; 0x03] 3 initial_state in
  let r := PassThruReadMsgs st (Some memset_zero) (Some 0) in
  let r' := PassThruReadMsgs (rd_state r) (Some memset_zero) (Some 1) in
  rd_state r = st /\ has_pending (rd_state r) <> 0 /\
  rd_num r = Some 0 /\ rd_msg r = Some memset_zero /\ rd_ret r = STATUS_NOERROR /\
  rd_msg r' = Some (pending_response st) /\ rd_num r' = Some 1.
Proof.
  apply (read_zero_count_keeps_pending (store [0x02; 0x50; 0x03] 3 initial_state)
           memset_zero memset_zero 1).
  - discriminate.
  - lia.
Defined.

(** ** Write path *)

(** C5.  A frame shorter than six bytes stores nothing: the write returns
    STATUS_NOERROR and the mailbox is as it was, so that with nothing
    pending before, the next read reports zero messages and leaves the
    caller's buffer alone. *)
Theorem short_frame_dropped
    (st : mock_state) (m buf : PASSTHRU_MSG) (num num' : DWORD) :
  DataSize m < 6 ->
  let w := PassThruWriteMsgs st (Some m) (Some num) in
  let r := PassThruReadMsgs (fst w) (Some buf) (Some num') in
  snd w = STATUS_NOERROR /\
  mailbox (fst w) = mailbox st /\
  (has_pending st = 0 ->
   rd_num r = Some 0 /\ rd_msg r = Some buf /\ rd_ret r = STATUS_NOERROR).
Proof.
  intros Hlen w r.
  assert (Hmb : mailbox (fst w) = mailbox st).
  { subst w. destruct (Z.eq_dec num 0) as [->|Hnz].
    - reflexivity.
    - rewrite write_short by assumption. reflexivity. }
  split; [apply write_returns_NOERROR|]. split; [exact Hmb|].
  intros Hempty. subst r.
  assert (Hp : has_pending (fst w) = 0).
  { unfold mailbox in Hmb. congruence. }
  rewrite read_nothing by (left; exact Hp).
  repeat split.
Qed.

Lemma short_frame_dropped_witness :
  let m := request_msg [0x00; 0x00; 0x07; 0xE0; 0x01] 5 in
  let w := PassThruWriteMsgs initial_state (Some m) (Some 1) in
  let r := PassThruReadMsgs (fst w) (Some memset_zero) (Some 1) in
  snd w = STATUS_NOERROR /\
  mailbox (fst w) = mailbox initial_state /\
  (has_pending initial_state = 0 ->
   rd_num r = Some 0 /\ rd_msg r = Some memset_zero /\ rd_ret r = STATUS_NOERROR).
Proof.
  intros m.
  apply (short_frame_dropped initial_state m memset_zero 1 1).
  simpl. lia.
Defined.

(** C3.  Writing the frame 00 00 07 E0 02 10 03 stores a response whose
    diagnostic bytes are 02 50 03; the next read hands out that response
    with a count of one and clears the pending flag; the read after it
    reports zero messages. *)
Theorem session_control_round_trip
    (st : mock_state) (m buf1 buf2 : PASSTHRU_MSG) (num n1 n2 : DWORD) :
  num <> 0 -> 0 < n1 ->
  DataSize m = 7 ->
  take 7 (Data m) = [0x00; 0x00; 0x07; 0xE0; 0x02; 0x10; 0x03] ->
  let st1 := fst (PassThruWriteMsgs st (Some m) (Some num)) in
  let r1 := PassThruReadMsgs st1 (Some buf1) (Some n1) in
  let r2 := PassThruReadMsgs (rd_state r1) (Some buf2) (Some n2) in
  has_pending st1 = 1 /\
  uds_payload_of (pending_response st1) = [0x02; 0x50; 0x03] /\
  rd_msg r1 = Some (pending_response st1) /\ rd_num r1 = Some 1 /\
  has_pending (rd_state r1) = 0 /\
  rd_num r2 = Some 0 /\ rd_msg r2 = Some buf2.
Proof.
  intros Hnum Hn1 Hlen Hbytes st1 r1 r2.
  assert (Hsvc : byte_at (Data m) 5 = 0x10).
  { rewrite (byte_at_take _ _ 7 5 Hbytes) by lia. reflexivity. }
  assert (Hsf : byte_at (Data m) 6 = 0x03).
  { rewrite (byte_at_take _ _ 7 6 Hbytes) by lia. reflexivity. }
  assert (Hst1 : st1 = store [0x02; 0x50; 0x03] 3
            (log_msg (LogSessionControl 0x03)
               (log_bytes TX (Data m) (DataSize m) st))).
  { subst st1. rewrite write_session by (try assumption; lia).
    rewrite Hsf. reflexivity. }
  assert (Hr1 : r1 = mkRead
            (clear_pending
               (log_bytes RX (Data (pending_response st1))
                  (DataSize (pending_response st1)) st1))
            (Some (pending_response st1)) (Some 1) STATUS_NOERROR).
  { apply read_pending; [rewrite Hst1; discriminate|exact Hn1]. }
  subst r2. rewrite Hr1. cbn [rd_msg rd_num rd_state].
  rewrite read_nothing by (left; reflexivity).
  rewrite Hst1. cbn [pending_response has_pending store clear_pending].
  split; [reflexivity|]. split.
  { apply (uds_payload_of_build [0x02; 0x50; 0x03]). unfold DATA_LEN. simpl. lia. }
  repeat split.
Qed.

Lemma session_control_round_trip_witness :
  let m := request_msg [0x00; 0x00; 0x07; 0xE0; 0x02; 0x10; 0x03] 7 in
  let st1 := fst (PassThruWriteMsgs initial_state (Some m) (Some 1)) in
  let r1 := PassThruReadMsgs st1 (Some memset_zero) (Some 1) in
  let r2 := PassThruReadMsgs (rd_state r1) (Some memset_zero) (Some 1) in
  has_pending st1 = 1 /\
  uds_payload_of (pending_response st1) = [0x02; 0x50; 0x03] /\
  rd_msg r1 = Some (pending_response st1) /\ rd_num r1 = Some 1 /\
  has_pending (rd_state r1) = 0 /\
  rd_num r2 = Some 0 /\ rd_msg r2 = Some memset_zero.
Proof.
  intros m.
  apply (session_control_round_trip initial_state m memset_zero memset_zero 1 1 1).
  - lia.
  - lia.
  - reflexivity.
  - reflexivity.
Defined.

(** C7.  A requestSeed frame (service 0x27, subfunction 0x03) leaves the
    response 04 67 03 12 34 pending, whatever the statics held before. *)
Theorem requestSeed_constant (st : mock_state) (m : PASSTHRU_MSG) (num : DWORD) :
  num <> 0 -> 6 <= DataSize m ->
  byte_at (Data m) 5 = 0x27 -> byte_at (Data m) 6 = 0x03 ->
  let st' := fst (PassThruWriteMsgs st (Some m) (Some num)) in
  mailbox st'
    = (build_can_response [0x04; 0x67; 0x03; 0x12; 0x34] 5, sizeof_PASSTHRU_MSG, 1) /\
  uds_payload_of (pending_response st') = [0x04; 0x67; 0x03; 0x12; 0x34].
Proof.
  intros Hnum Hlen Hsvc Hsf st'. subst st'.
  rewrite write_requestSeed by assumption.
  cbn [fst]. split; [reflexivity|].
  cbn [pending_response store].
  apply (uds_payload_of_build [0x04; 0x67; 0x03; 0x12; 0x34]).
  unfold DATA_LEN. simpl. lia.
Qed.

Lemma requestSeed_constant_witness :
  let m := request_msg [0x00; 0x00; 0x07; 0xE0; 0x02; 0x27; 0x03] 7 in
  let st := store [0x02; 0x50; 0x03] 3 initial_state in
  let st' := fst (PassThruWriteMsgs st (Some m) (Some 1)) in
  mailbox st'
    = (build_can_response [0x04; 0x67; 0x03; 0x12; 0x34] 5, sizeof_PASSTHRU_MSG, 1) /\
  uds_payload_of (pending_response st') = [0x04; 0x67; 0x03; 0x12; 0x34].
Proof.
  intros m st.
  apply (requestSeed_constant st m 1).
  - lia.
  - simpl. lia.
  - reflexivity.
  - reflexivity.
Defined.

(** ** SecurityAccess sendKey *)

(** C2.  When the sendKey rule fires, with KH = data[7] and KL = data[8],
    the trace records the key KH*256 + KL, the reference value
    (0x1234 * 0x4081 + 0x1234) mod 65536 and, as the match flag, whether the
    two are equal; the pending response is the one built from 02 67 04
    whatever the key. *)
Theorem sendKey_key_observation (st : mock_state) (m : PASSTHRU_MSG) (num : DWORD) :
  num <> 0 -> wf_msg m -> 8 <= DataSize m ->
  byte_at (Data m) 5 = 0x27 -> byte_at (Data m) 6 = 0x04 ->
  let kh := byte_at (Data m) 7 in
  let kl := byte_at (Data m) 8 in
  let observed_key := kh * 256 + kl in
  let candidate_key := (0x1234 * 0x4081 + 0x1234) mod 65536 in
  let st' := fst (PassThruWriteMsgs st (Some m) (Some num)) in
  trace st'
    = trace st ++
      [LogBytes TX (DataSize m) (take (Z.to_nat (Z.min (DataSize m) 32)) (Data m));
       LogSendKey;
       LogWriteSessionKey kh kl observed_key;
       LogKey16 observed_key;
       LogReadFormula candidate_key (observed_key =? candidate_key)] /\
  mailbox st' = (build_can_response [0x02; 0x67; 0x04] 3, sizeof_PASSTHRU_MSG, 1) /\
  uds_payload_of (pending_response st') = [0x02; 0x67; 0x04].
Proof.
  intros Hnum (_ & _ & Hbytes) Hlen Hsvc Hsf kh kl observed_key candidate_key st'.
  subst st'. rewrite write_sendKey by assumption. cbn [fst].
  fold kh kl.
  rewrite (key_of_bytes kh kl) by (apply byte_at_is_BYTE; exact Hbytes).
  fold observed_key.
  split; [|split].
  - rewrite trace_store, !trace_log_msg. unfold log_bytes.
    rewrite trace_log_msg, <- !app_assoc. reflexivity.
  - reflexivity.
  - cbn [pending_response store].
    apply (uds_payload_of_build [0x02; 0x67; 0x04]). unfold DATA_LEN. simpl. lia.
Qed.

Lemma sendKey_key_observation_witness :
  let m := request_msg [0x00; 0x00; 0x07; 0xE0; 0x04; 0x27; 0x04; 0xAA; 0xBB] 9 in
  let st' := fst (PassThruWriteMsgs initial_state (Some m) (Some 1)) in
  trace st'
    = [LogBytes TX 9 [0x00; 0x00; 0x07; 0xE0; 0x04; 0x27; 0x04; 0xAA; 0xBB];
       LogSendKey;
       LogWriteSessionKey 0xAA 0xBB 0xAABB;
       LogKey16 0xAABB;
       LogReadFormula 0x3E68 false] /\
  mailbox st' = (build_can_response [0x02; 0x67; 0x04] 3, sizeof_PASSTHRU_MSG, 1) /\
  uds_payload_of (pending_response st') = [0x02; 0x67; 0x04].
Proof.
  intros m.
  apply (sendKey_key_observation initial_state m 1).
  - lia.
  - apply wf_request_msg.
    + repeat (apply Forall_cons; split; [unfold is_BYTE; lia|]). apply Forall_nil_2.
    + unfold DATA_LEN. simpl. lia.
    + unfold is_DWORD. lia.
  - simpl. lia.
  - reflexivity.
  - reflexivity.
Defined.

(** C9.  A seven-byte frame whose diagnostic bytes are 27 04 takes the
    generic rule: the trace shows the unknown-service entry and no key
    entry.  The mailbox it leaves is the one every frame that fires the
    sendKey rule leaves, the response built from 02 67 04. *)
Theorem sendKey_without_key_same_response
    (st st2 : mock_state) (m m2 : PASSTHRU_MSG) (num num2 : DWORD) :
  num <> 0 -> DataSize m = 7 ->
  byte_at (Data m) 5 = 0x27 -> byte_at (Data m) 6 = 0x04 ->
  num2 <> 0 -> 8 <= DataSize m2 ->
  byte_at (Data m2) 5 = 0x27 -> byte_at (Data m2) 6 = 0x04 ->
  let st' := fst (PassThruWriteMsgs st (Some m) (Some num)) in
  let st2' := fst (PassThruWriteMsgs st2 (Some m2) (Some num2)) in
  trace st' = trace st ++ [LogBytes TX 7 (take 7 (Data m)); LogUnknownService 0x27] /\
  uds_payload_of (pending_response st') = [0x02; 0x67; 0x04] /\
  mailbox st' = mailbox st2' /\
  In LogSendKey (skipn (length (trace st2)) (trace st2')).
Proof.
  intros Hnum Hlen Hsvc Hsf Hnum2 Hlen2 Hsvc2 Hsf2 st' st2'.
  assert (Hun : unmatched m).
  { unfold unmatched. rewrite Hsvc, Hsf, Hlen.
    repeat split; try discriminate; intros H; lia. }
  subst st' st2'.
  rewrite (write_generic st m num Hnum) by (try exact Hun; lia).
  rewrite (write_sendKey st2 m2 num2 Hnum2) by assumption.
  cbn [fst]. rewrite Hsvc, Hsf, Hlen.
  split; [|split; [|split]].
  - rewrite trace_store, trace_log_msg. unfold log_bytes.
    rewrite trace_log_msg, <- app_assoc. reflexivity.
  - reflexivity.
  - reflexivity.
  - rewrite trace_store, !trace_log_msg. unfold log_bytes.
    rewrite trace_log_msg, <- !app_assoc.
    rewrite skipn_app, skipn_all, Nat.sub_diag. simpl. right; left; reflexivity.
Qed.

Lemma sendKey_without_key_same_response_witness :
  let m := request_msg [0x00; 0x00; 0x07; 0xE0; 0x02; 0x27; 0x04] 7 in
  let m2 := request_msg [0x00; 0x00; 0x07; 0xE0; 0x04; 0x27; 0x04; 0xAA; 0xBB] 9 in
  let st' := fst (PassThruWriteMsgs initial_state (Some m) (Some 1)) in
  let st2' := fst (PassThruWriteMsgs initial_state (Some m2) (Some 1)) in
  trace st' = [LogBytes TX 7 [0x00; 0x00; 0x07; 0xE0; 0x02; 0x27; 0x04];
               LogUnknownService 0x27] /\
  uds_payload_of (pending_response st') = [0x02; 0x67; 0x04] /\
  mailbox st' = mailbox st2' /\
  In LogSendKey (skipn (length (trace initial_state)) (trace st2')).
Proof.
  intros m m2.
  apply (sendKey_without_key_same_response initial_state initial_state m m2 1 1).
  - lia.
  - reflexivity.
  - reflexivity.
  - reflexivity.
  - lia.
  - simpl. lia.
  - reflexivity.
  - reflexivity.
Defined.

(** The sendKey rule fires on a frame with service 0x27 and subfunction
    0x04 exactly from eight bytes on; below that the generic rule answers. *)
Lemma sendKey_rule_threshold (st : mock_state) (m : PASSTHRU_MSG) (num : DWORD) :
  num <> 0 -> 6 <= DataSize m ->
  byte_at (Data m) 5 = 0x27 -> byte_at (Data m) 6 = 0x04 ->
  let fresh := skipn (length (trace st)) (trace (fst (PassThruWriteMsgs st (Some m) (Some num)))) in
  (8 <= DataSize m -> In LogSendKey fresh /\ ~ In (LogUnknownService 0x27) fresh) /\
  (DataSize m < 8 -> In (LogUnknownService 0x27) fresh /\ ~ In LogSendKey fresh).
Proof.
  intros Hnum Hlen Hsvc Hsf fresh. subst fresh. split; intros Hcmp.
  - rewrite write_sendKey by assumption. cbn [fst].
    rewrite trace_store, !trace_log_msg. unfold log_bytes.
    rewrite trace_log_msg, <- !app_assoc.
    rewrite skipn_app, skipn_all, Nat.sub_diag. simpl.
    split; [tauto|]. intros H.
    repeat (destruct H as [H|H]; [discriminate H|]). exact H.
  - assert (Hun : unmatched m).
    { unfold unmatched. rewrite Hsvc, Hsf.
      repeat split; try discriminate; intros H; lia. }
    rewrite (write_generic st m num Hnum Hlen Hun). cbn [fst]. rewrite Hsvc.
    rewrite trace_store, trace_log_msg. unfold log_bytes.
    rewrite trace_log_msg, <- !app_assoc.
    rewrite skipn_app, skipn_all, Nat.sub_diag. simpl.
    split; [tauto|]. intros H.
    repeat (destruct H as [H|H]; [discriminate H|]). exact H.
Qed.

(** C1.  The code at an eight-byte frame with service 0x27 and subfunction
    0x04: one byte follows the subfunction, yet the sendKey rule fires (the
    guard is [len >= 8]) and takes the low key byte from offset 8, one cell
    beyond the declared frame. *)
Theorem sendKey_rule_fires_on_eight_byte_frame :
  let m := request_msg [0x00; 0x00; 0x07; 0xE0; 0x03; 0x27; 0x04; 0xAA; 0xBB] 8 in
  let w := PassThruWriteMsgs initial_state (Some m) (Some 1) in
  DataSize m = 8 /\
  trace (fst w)
    = [LogBytes TX 8 [0x00; 0x00; 0x07; 0xE0; 0x03; 0x27; 0x04; 0xAA];
       LogSendKey;
       LogWriteSessionKey 0xAA 0xBB 0xAABB;
       LogKey16 0xAABB;
       LogReadFormula 0x3E68 false] /\
  ~ In (LogUnknownService 0x27) (trace (fst w)).
Proof.
  intros m w. split; [reflexivity|].
  assert (Ht : trace (fst w)
               = [LogBytes TX 8 [0x00; 0x00; 0x07; 0xE0; 0x03; 0x27; 0x04; 0xAA];
                  LogSendKey;
                  LogWriteSessionKey 0xAA 0xBB 0xAABB;
                  LogKey16 0xAABB;
                  LogReadFormula 0x3E68 false]) by reflexivity.
  split; [exact Ht|]. rewrite Ht. intros H. simpl in H.
  repeat (destruct H as [H|H]; [discriminate H|]). exact H.
Qed.

(** C6.  The code at two six-byte frames that agree on bytes 0 to 5: the
    subfunction is read from offset 6 although the frame ends at offset 5,
    and the two stored responses differ in that byte. *)
Theorem six_byte_frame_response_depends_on_offset_6 :
  let m1 := request_msg [0x00; 0x00; 0x07; 0xE0; 0x01; 0x10; 0x03] 6 in
  let m2 := request_msg [0x00; 0x00; 0x07; 0xE0; 0x01; 0x10; 0x05] 6 in
  let st1 := fst (PassThruWriteMsgs initial_state (Some m1) (Some 1)) in
  let st2 := fst (PassThruWriteMsgs initial_state (Some m2) (Some 1)) in
  DataSize m1 = 6 /\ DataSize m2 = 6 /\
  take 6 (Data m1) = take 6 (Data m2) /\
  uds_payload_of (pending_response st1) = [0x02; 0x50; 0x03] /\
  uds_payload_of (pending_response st2) = [0x02; 0x50; 0x05] /\
  pending_response st1 <> pending_response st2.
Proof.
  intros m1 m2 st1 st2.
  assert (H1 : uds_payload_of (pending_response st1) = [0x02; 0x50; 0x03])
    by reflexivity.
  assert (H2 : uds_payload_of (pending_response st2) = [0x02; 0x50; 0x05])
    by reflexivity.
  repeat split; try assumption.
  intros Heq. rewrite Heq, H2 in H1. discriminate H1.
Qed.

(** ** Every frame is answered *)

(** C8.  A frame of six bytes or more always leaves exactly one response
    pending, and that response is a positive one: its service byte is the
    request's plus 0x40 (as a byte), behind a length byte, and the bytes
    never form a negative response.  When no dedicated rule applies the
    bytes are 02, service + 0x40, subfunction; below 0xC0 the sum does not
    wrap. *)
Theorem every_frame_gets_positive_response
    (st : mock_state) (m : PASSTHRU_MSG) (num : DWORD) :
  num <> 0 -> 6 <= DataSize m ->
  let uds_svc := byte_at (Data m) 5 in
  let uds_sf := byte_at (Data m) 6 in
  let w := PassThruWriteMsgs st (Some m) (Some num) in
  snd w = STATUS_NOERROR /\
  has_pending (fst w) = 1 /\
  (exists resp : list BYTE,
      pending_response (fst w) = build_can_response resp (length resp) /\
      uds_payload_of (pending_response (fst w)) = resp /\
      positive_response_to uds_svc resp /\
      ~ negative_response resp) /\
  (unmatched m ->
   uds_payload_of (pending_response (fst w))
     = [0x02; to_BYTE (uds_svc + 0x40); uds_sf] /\
   (is_BYTE uds_svc -> uds_svc < 0xC0 -> to_BYTE (uds_svc + 0x40) = uds_svc + 0x40)).
Proof.
  intros Hnum Hlen uds_svc uds_sf w. subst uds_svc uds_sf w.
  assert (Hshort : forall resp : list BYTE,
             (length resp <= 5)%nat ->
             uds_payload_of (build_can_response resp (length resp)) = resp).
  { intros resp Hr. apply uds_payload_of_build. unfold DATA_LEN. lia. }
  split; [apply write_returns_NOERROR|].
  destruct (rule_cases m) as [H10|[[H27 H03]|[(H27 & H04 & H8)|[H34|Hun]]]].
  - rewrite write_session by assumption. cbn [fst has_pending pending_response store].
    split; [reflexivity|]. split.
    + exists [0x02; 0x50; byte_at (Data m) 6].
      split; [reflexivity|]. split; [apply Hshort; simpl; lia|].
      split; [split; [reflexivity|]; rewrite H10; reflexivity|].
      intros (sid & nrc & Hneg). discriminate Hneg.
    + intros (Hne & _). contradiction.
  - rewrite write_requestSeed by assumption.
    cbn [fst has_pending pending_response store].
    split; [reflexivity|]. split.
    + exists [0x04; 0x67; 0x03; 0x12; 0x34].
      split; [reflexivity|]. split; [apply Hshort; simpl; lia|].
      split; [split; [reflexivity|]; rewrite H27; reflexivity|].
      intros (sid & nrc & Hneg). discriminate Hneg.
    + intros (_ & Hne & _). tauto.
  - rewrite write_sendKey by assumption.
    cbn [fst has_pending pending_response store].
    split; [reflexivity|]. split.
    + exists [0x02; 0x67; 0x04].
      split; [reflexivity|]. split; [apply Hshort; simpl; lia|].
      split; [split; [reflexivity|]; rewrite H27; reflexivity|].
      intros (sid & nrc & Hneg). discriminate Hneg.
    + intros (_ & _ & Hne & _). tauto.
  - rewrite write_download by assumption.
    cbn [fst has_pending pending_response store].
    split; [reflexivity|]. split.
    + exists [0x03; 0x74; 0x20; 0x0F].
      split; [reflexivity|]. split; [apply Hshort; simpl; lia|].
      split; [split; [reflexivity|]; rewrite H34; reflexivity|].
      intros (sid & nrc & Hneg). discriminate Hneg.
    + intros (_ & _ & _ & Hne). contradiction.
  - rewrite (write_generic st m num Hnum Hlen Hun).
    cbn [fst has_pending pending_response store].
    split; [reflexivity|]. split.
    + exists [0x02; to_BYTE (byte_at (Data m) 5 + 0x40); byte_at (Data m) 6].
      split; [reflexivity|]. split; [apply Hshort; simpl; lia|].
      split; [split; reflexivity|].
      intros (sid & nrc & Hneg). discriminate Hneg.
    + intros _. split; [apply Hshort; simpl; lia|].
      unfold is_BYTE, to_BYTE. intros Hb Hc. apply Z.mod_small. lia.
Qed.

Lemma every_frame_gets_positive_response_witness :
  let m := request_msg [0x00; 0x00; 0x07; 0xE0; 0x02; 0x99; 0x01] 7 in
  let w := PassThruWriteMsgs initial_state (Some m) (Some 1) in
  snd w = STATUS_NOERROR /\
  has_pending (fst w) = 1 /\
  uds_payload_of (pending_response (fst w)) = [0x02; 0xD9; 0x01].
Proof.
  intros m w.
  destruct (every_frame_gets_positive_response initial_state m 1)
    as (Hret & Hpend & _ & Hgen).
  - lia.
  - simpl. lia.
  - split; [exact Hret|]. split; [exact Hpend|].
    apply Hgen. unfold unmatched.
    change (byte_at (Data m) 5) with 0x99.
    change (byte_at (Data m) 6) with 0x01.
    repeat split; try discriminate; intros H; lia.
Defined.

(** * Further properties of the code *)

(** ** build_can_response *)

Lemma build_can_response_take (payload : list BYTE) (n : nat) :
  build_can_response payload n = build_can_response (take n payload) n.
Proof.
  unfold build_can_response, memcpy_at.
  rewrite take_take, Nat.min_id. reflexivity.
Qed.

(** X1.  The frame [build_can_response] makes of the first [n] bytes of a
    payload (at most 4124, so that they fit behind the identifier): protocol
    ISO15765, all status fields zero, [DataSize] four more than [n], and an
    array of 4128 cells holding 00 00 07 E8, the [n] bytes and zeroes to the
    end.  Reading the bytes from offset 4 up to [DataSize] gives the [n]
    bytes back. *)
Theorem build_can_response_layout (payload : list BYTE) (n : nat) :
  (n <= length payload)%nat -> (n <= DATA_LEN - 4)%nat ->
  let msg := build_can_response payload n in
  ProtocolID msg = ISO15765 /\
  RxStatus msg = 0 /\ TxFlags msg = 0 /\ Timestamp msg = 0 /\ ExtraDataIndex msg = 0 /\
  DataSize msg = 4 + Z.of_nat n /\
  Data msg = [0x00; 0x00; 0x07; 0xE8] ++ take n payload ++ replicate (DATA_LEN - 4 - n) 0 /\
  length (Data msg) = DATA_LEN /\
  uds_payload_of msg = take n payload.
Proof.
  intros Hn Hfit msg.
  assert (Hlen : length (take n payload) = n) by (rewrite length_take; lia).
  assert (Hdata : Data msg
            = [0x00; 0x00; 0x07; 0xE8] ++ take n payload
              ++ replicate (DATA_LEN - 4 - n) 0).
  { subst msg. rewrite build_can_response_take.
    rewrite <- Hlen at 2. rewrite build_can_response_Data by (rewrite Hlen; exact Hfit).
    rewrite Hlen. reflexivity. }
  split; [reflexivity|]. split; [reflexivity|]. split; [reflexivity|].
  split; [reflexivity|]. split; [reflexivity|].
  split; [apply build_can_response_DataSize; exact Hfit|].
  split; [exact Hdata|]. split.
  - rewrite Hdata, !length_app, length_replicate, Hlen.
    unfold DATA_LEN in *. simpl. lia.
  - subst msg. rewrite build_can_response_take.
    rewrite <- Hlen at 2. apply uds_payload_of_build. rewrite Hlen. exact Hfit.
Qed.

Lemma build_can_response_layout_witness :
  let msg := build_can_response [0x04; 0x67; 0x03; 0x12; 0x34] 5 in
  ProtocolID msg = ISO15765 /\
  RxStatus msg = 0 /\ TxFlags msg = 0 /\ Timestamp msg = 0 /\ ExtraDataIndex msg = 0 /\
  DataSize msg = 4 + Z.of_nat 5 /\
  Data msg = [0x00; 0x00; 0x07; 0xE8] ++ take 5 [0x04; 0x67; 0x03; 0x12; 0x34]
             ++ replicate (DATA_LEN - 4 - 5) 0 /\
  length (Data msg) = DATA_LEN /\
  uds_payload_of msg = take 5 [0x04; 0x67; 0x03; 0x12; 0x34].
Proof.
  apply (build_can_response_layout [0x04; 0x67; 0x03; 0x12; 0x34] 5).
  - simpl. lia.
  - unfold DATA_LEN. lia.
Defined.

(** ** Edge behaviour of the two entry points *)

(** X2.  Neither entry point ever fails: whatever the statics and the
    arguments, null pointers included, the value returned is
    STATUS_NOERROR and never STATUS_ERR_FAILED. *)
Theorem entry_points_never_fail
    (st : mock_state) (pMsg : option PASSTHRU_MSG) (pNumMsgs : option DWORD) :
  snd (PassThruWriteMsgs st pMsg pNumMsgs) = STATUS_NOERROR /\
  rd_ret (PassThruReadMsgs st pMsg pNumMsgs) = STATUS_NOERROR /\
  snd (PassThruWriteMsgs st pMsg pNumMsgs) <> STATUS_ERR_FAILED /\
  rd_ret (PassThruReadMsgs st pMsg pNumMsgs) <> STATUS_ERR_FAILED.
Proof.
  rewrite write_returns_NOERROR, read_returns_NOERROR.
  repeat split; discriminate.
Qed.

(** Every write that gets past the pointer and count checks logs the
    frame first. *)
Lemma write_logs_frame (st : mock_state) (m : PASSTHRU_MSG) (num : DWORD) :
  num <> 0 ->
  exists more : list log_entry,
    trace (fst (PassThruWriteMsgs st (Some m) (Some num)))
    = trace st
      ++ LogBytes TX (DataSize m) (take (Z.to_nat (Z.min (DataSize m) 32)) (Data m))
      :: more.
Proof.
  intros Hnum.
  destruct (Z_lt_le_dec (DataSize m) 6) as [Hshort|Hlen].
  - rewrite write_short by assumption. exists []. reflexivity.
  - destruct (rule_cases m) as [H10|[[H27 H03]|[(H27 & H04 & H8)|[H34|Hun]]]].
    + rewrite write_session by assumption. eexists. cbn [fst].
      rewrite trace_store, trace_log_msg. unfold log_bytes.
      rewrite trace_log_msg, <- !app_assoc. reflexivity.
    + rewrite write_requestSeed by assumption. eexists. cbn [fst].
      rewrite trace_store, !trace_log_msg. unfold log_bytes.
      rewrite trace_log_msg, <- !app_assoc. reflexivity.
    + rewrite write_sendKey by assumption. eexists. cbn [fst].
      rewrite trace_store, !trace_log_msg. unfold log_bytes.
      rewrite trace_log_msg, <- !app_assoc. reflexivity.
    + rewrite write_download by assumption. eexists. cbn [fst].
      rewrite trace_store, trace_log_msg. unfold log_bytes.
      rewrite trace_log_msg, <- !app_assoc. reflexivity.
    + rewrite write_generic by assumption. eexists. cbn [fst].
      rewrite trace_store, trace_log_msg. unfold log_bytes.
      rewrite trace_log_msg, <- !app_assoc. reflexivity.
Qed.

(** X3.  A write leaves the statics and the trace exactly as they were if
    and only if [pMsg] is null, [pNumMsgs] is null or the count is zero;
    every other write is visible at least in the trace. *)
Theorem write_is_noop_iff
    (st : mock_state) (pMsg : option PASSTHRU_MSG) (pNumMsgs : option DWORD) :
  fst (PassThruWriteMsgs st pMsg pNumMsgs) = st
  <-> (pMsg = None \/ pNumMsgs = None \/ pNumMsgs = Some 0).
Proof.
  split.
  - intros Hsame.
    destruct pMsg as [m|]; [|left; reflexivity].
    destruct pNumMsgs as [num|]; [|right; left; reflexivity].
    destruct (Z.eq_dec num 0) as [->|Hnum]; [right; right; reflexivity|].
    exfalso.
    destruct (write_logs_frame st m num Hnum) as [more Htrace].
    rewrite Hsame in Htrace.
    apply (f_equal length) in Htrace.
    rewrite length_app in Htrace. simpl in Htrace. lia.
  - intros [ -> | [ -> | -> ] ].
    + reflexivity.
    + destruct pMsg; reflexivity.
    + destruct pMsg; reflexivity.
Qed.

(** X4.  A read with a null [pMsg] or a null [pNumMsgs] touches nothing:
    the statics and the trace stay, the caller's count is not reset to zero,
    and a response that was pending is still handed out by the next read
    that passes both pointers and a positive count. *)
Theorem read_with_null_pointer_touches_nothing
    (st : mock_state) (pMsg : option PASSTHRU_MSG) (pNumMsgs : option DWORD)
    (buf : PASSTHRU_MSG) (num : DWORD) :
  pMsg = None \/ pNumMsgs = None ->
  let r := PassThruReadMsgs st pMsg pNumMsgs in
  let r' := PassThruReadMsgs (rd_state r) (Some buf) (Some num) in
  rd_state r = st /\ rd_msg r = pMsg /\ rd_num r = pNumMsgs /\
  rd_ret r = STATUS_NOERROR /\
  (has_pending st <> 0 -> 0 < num ->
   rd_msg r' = Some (pending_response st) /\ rd_num r' = Some 1).
Proof.
  intros Hnull r r'.
  assert (Hr : r = mkRead st pMsg pNumMsgs STATUS_NOERROR).
  { subst r. destruct Hnull as [-> | ->]; [reflexivity|].
    destruct pMsg; reflexivity. }
  subst r'. rewrite Hr. cbn [rd_state rd_msg rd_num rd_ret].
  repeat split. 
  - rewrite read_pending by assumption. reflexivity.
  - rewrite read_pending by assumption. reflexivity.
Qed.

Lemma read_with_null_pointer_touches_nothing_witness :
  let st := store [0x02; 0x50; 0x03] 3 initial_state in
  let r := PassThruReadMsgs st None (Some 5) in
  let r' := PassThruReadMsgs (rd_state r) (Some memset_zero) (Some 1) in
  rd_state r = st /\ rd_msg r = None /\ rd_num r = Some 5 /\
  rd_ret r = STATUS_NOERROR /\
  rd_msg r' = Some (pending_response st) /\ rd_num r' = Some 1.
Proof.
  intros st r r'.
  destruct (read_with_null_pointer_touches_nothing st None (Some 5) memset_zero 1)
    as (Hst & Hmsg & Hnum & Hret & Hnext).
  - left. reflexivity.
  - repeat (split; [assumption|]).
    apply Hnext; [discriminate|lia].
Defined.

(** X5.  A read with both pointers set reports one message or none.  It
    reports one exactly when a response is pending and the caller's count is
    positive; then the caller gets the pending frame, the flag is cleared,
    the stored frame itself stays and one RX entry is logged.  Otherwise the
    count is set to zero, the caller's buffer is not written and nothing,
    not even the trace, changes. *)
Theorem read_reports_one_or_none
    (st : mock_state) (buf : PASSTHRU_MSG) (num : DWORD) :
  let r := PassThruReadMsgs st (Some buf) (Some num) in
  (rd_num r = Some 1 <-> (has_pending st <> 0 /\ 0 < num)) /\
  (rd_num r = Some 1 ->
   rd_msg r = Some (pending_response st) /\
   has_pending (rd_state r) = 0 /\
   pending_response (rd_state r) = pending_response st /\
   pending_response_len (rd_state r) = pending_response_len st /\
   trace (rd_state r)
   = trace st
     ++ [LogBytes RX (DataSize (pending_response st))
           (take (Z.to_nat (Z.min (DataSize (pending_response st)) 32))
              (Data (pending_response st)))]) /\
  (rd_num r <> Some 1 ->
   rd_num r = Some 0 /\ rd_msg r = Some buf /\ rd_state r = st).
Proof.
  intros r. subst r.
  destruct (Z.eq_dec (has_pending st) 0) as [Hempty|Hfull].
  - rewrite read_nothing by (left; exact Hempty). cbn [rd_num rd_msg rd_state].
    split; [split; [discriminate|tauto]|].
    split; [discriminate|]. intros _. repeat split.
  - destruct (Z_lt_le_dec 0 num) as [Hpos|Hzero].
    + rewrite read_pending by assumption. cbn [rd_num rd_msg rd_state].
      split; [tauto|]. split; [|congruence].
      intros _. repeat split.
    + rewrite read_nothing by (right; exact Hzero). cbn [rd_num rd_msg rd_state].
      split; [split; [discriminate|lia]|].
      split; [discriminate|]. intros _. repeat split.
Qed.

(** ** Sequences of writes and reads *)

Lemma has_pending_after_write (st : mock_state) (pMsg : option PASSTHRU_MSG)
    (pNumMsgs : option DWORD) :
  has_pending (fst (PassThruWriteMsgs st pMsg pNumMsgs))
  = if accepted (CallWrite pMsg pNumMsgs) then 1 else has_pending st.
Proof.
  destruct pMsg as [m|]; [|reflexivity].
  destruct pNumMsgs as [num|]; [|reflexivity].
  cbn [accepted].
  destruct (Z.eqb_spec num 0) as [->|Hnum]; [reflexivity|].
  destruct (Z.leb_spec 6 (DataSize m)) as [Hlen|Hshort]; cbn [negb andb].
  - destruct (rule_cases m) as [H10|[[H27 H03]|[(H27 & H04 & H8)|[H34|Hun]]]].
    + rewrite write_session by assumption. reflexivity.
    + rewrite write_requestSeed by assumption. reflexivity.
    + rewrite write_sendKey by assumption. reflexivity.
    + rewrite write_download by assumption. reflexivity.
    + rewrite write_generic by assumption. reflexivity.
  - rewrite write_short by assumption. reflexivity.
Qed.



(** ** What the mailbox can hold *)

Lemma byte_at_app_r (l k : list BYTE) (i : nat) :
  (length l <= i)%nat -> byte_at (l ++ k) i = byte_at k (i - length l).
Proof.
  intros Hi. unfold byte_at. rewrite lookup_app_r by exact Hi. reflexivity.
Qed.

(** The frame built from three to five bytes that start with their own
    count is a response frame. *)
Lemma response_frame_build (resp : list BYTE) :
  (3 <= length resp <= 5)%nat -> Forall is_BYTE resp ->
  byte_at resp 0 = Z.of_nat (length resp) - 1 ->
  response_frame (build_can_response resp (length resp)).
Proof.
  intros Hlen Hbytes Hcount.
  assert (Hfit : (length resp <= DATA_LEN - 4)%nat) by (unfold DATA_LEN; lia).
  pose proof (build_can_response_Data resp Hfit) as Hdata.
  pose proof (build_can_response_DataSize resp (length resp) Hfit) as Hsize.
  unfold response_frame, wf_msg. rewrite Hsize, Hdata.
  repeat split.
  - lia.
  - unfold DATA_LEN in *. lia.
  - rewrite !length_app, length_replicate. unfold DATA_LEN in *. simpl. lia.
  - apply Forall_app. split.
    + repeat (apply Forall_cons; split; [unfold is_BYTE; lia|]). apply Forall_nil_2.
    + apply Forall_app. split; [exact Hbytes|].
      apply Forall_replicate. unfold is_BYTE. lia.
  - lia.
  - lia.
  - rewrite byte_at_app_r by (simpl; lia). simpl.
    destruct resp as [|r0 resp']; [simpl in Hlen; lia|].
    unfold byte_at in *. simpl in *. lia.
  - intros i [Hlo Hhi].
    rewrite byte_at_app_r by (simpl; lia).
    rewrite byte_at_app_r by (simpl; lia).
    unfold byte_at. simpl length.
    rewrite lookup_replicate_2 by (unfold DATA_LEN in *; lia). reflexivity.
Qed.

Lemma mailbox_inv_store (resp : list BYTE) (st : mock_state) :
  response_frame (build_can_response resp (length resp)) ->
  mailbox_inv (store resp (length resp) st).
Proof.
  intros Hframe. unfold mailbox_inv. cbn [store has_pending pending_response_len pending_response].
  split; [right; reflexivity|]. split; [right; reflexivity|]. intros _. exact Hframe.
Qed.

Lemma mailbox_inv_same (st st' : mock_state) :
  mailbox st' = mailbox st -> mailbox_inv st -> mailbox_inv st'.
Proof.
  unfold mailbox, mailbox_inv. intros Heq Hinv.
  injection Heq as -> -> ->. exact Hinv.
Qed.

Lemma mailbox_inv_step (st : mock_state) (c : call) :
  wf_call c -> mailbox_inv st -> mailbox_inv (step st c).
Proof.
  intros Hwf Hinv. destruct c as [pMsg pNumMsgs|pMsg pNumMsgs]; cbn [step].
  - destruct pMsg as [m|]; [|exact Hinv].
    destruct pNumMsgs as [num|]; [|exact Hinv].
    destruct (Z.eq_dec num 0) as [->|Hnum]; [exact Hinv|].
    destruct (Z_lt_le_dec (DataSize m) 6) as [Hshort|Hlen].
    { rewrite write_short by assumption. exact Hinv. }
    cbn [wf_call] in Hwf. destruct Hwf as (_ & _ & Hbytes).
    pose proof (byte_at_is_BYTE (Data m) 6 Hbytes) as Hsf.
    destruct (rule_cases m) as [H10|[[H27 H03]|[(H27 & H04 & H8)|[H34|Hun]]]].
    + rewrite write_session by assumption. cbn [fst].
      apply (mailbox_inv_store [0x02; 0x50; byte_at (Data m) 6]).
      apply response_frame_build; [simpl; lia| |reflexivity].
      repeat (apply Forall_cons; split; [unfold is_BYTE in *; lia|]). apply Forall_nil_2.
    + rewrite write_requestSeed by assumption. cbn [fst].
      apply (mailbox_inv_store [0x04; 0x67; 0x03; 0x12; 0x34]).
      apply response_frame_build; [simpl; lia| |reflexivity].
      repeat (apply Forall_cons; split; [unfold is_BYTE in *; lia|]). apply Forall_nil_2.
    + rewrite write_sendKey by assumption. cbn [fst].
      apply (mailbox_inv_store [0x02; 0x67; 0x04]).
      apply response_frame_build; [simpl; lia| |reflexivity].
      repeat (apply Forall_cons; split; [unfold is_BYTE in *; lia|]). apply Forall_nil_2.
    + rewrite write_download by assumption. cbn [fst].
      apply (mailbox_inv_store [0x03; 0x74; 0x20; 0x0F]).
      apply response_frame_build; [simpl; lia| |reflexivity].
      repeat (apply Forall_cons; split; [unfold is_BYTE in *; lia|]). apply Forall_nil_2.
    + rewrite write_generic by assumption. cbn [fst].
      apply (mailbox_inv_store
               [0x02; to_BYTE (byte_at (Data m) 5 + 0x40); byte_at (Data m) 6]).
      apply response_frame_build; [simpl; lia| |reflexivity].
      apply Forall_cons; split; [unfold is_BYTE; lia|].
      apply Forall_cons; split;
        [unfold is_BYTE, to_BYTE; apply Z.mod_pos_bound; lia|].
      apply Forall_cons; split; [exact Hsf|]. apply Forall_nil_2.
  - destruct pMsg as [buf|]; [|exact Hinv].
    destruct pNumMsgs as [num|]; [|exact Hinv].
    destruct (Z.eq_dec (has_pending st) 0) as [Hempty|Hfull].
    + rewrite read_nothing by (left; exact Hempty). exact Hinv.
    + destruct (Z_lt_le_dec 0 num) as [Hpos|Hzero].
      * rewrite read_pending by assumption.
        destruct Hinv as (_ & Hlen & _). unfold mailbox_inv.
        cbn [rd_state clear_pending has_pending pending_response_len].
        split; [left; reflexivity|]. split; [exact Hlen|]. discriminate.
      * rewrite read_nothing by (right; exact Hzero). exact Hinv.
Qed.

Lemma mailbox_inv_run (cs : list call) (st : mock_state) :
  Forall wf_call cs -> mailbox_inv st -> mailbox_inv (run st cs).
Proof.
  revert st. induction cs as [|c cs IH]; intros st Hwf Hinv.
  - exact Hinv.
  - apply Forall_cons in Hwf as [Hc Hcs]. unfold run. cbn [fold_left].
    apply IH; [exact Hcs|]. apply mailbox_inv_step; assumption.
Qed.

(** X7.  After any sequence of writes and reads from the initial statics,
    the callers' messages being messages of the C type, the pending flag is
    0 or 1 and the stored length 0 or sizeof(PASSTHRU_MSG); and whatever a
    read then hands out is a response frame: protocol ISO15765, identifier
    00 00 07 E8, seven to nine bytes, the length byte equal to the number
    of bytes behind it, every cell a byte and zero from [DataSize] on. *)
Theorem reachable_mailbox_holds_response_frames
    (cs : list call) (buf : PASSTHRU_MSG) (num : DWORD) :
  Forall wf_call cs ->
  let st := run initial_state cs in
  let r := PassThruReadMsgs st (Some buf) (Some num) in
  (has_pending st = 0 \/ has_pending st = 1) /\
  (pending_response_len st = 0 \/ pending_response_len st = sizeof_PASSTHRU_MSG) /\
  (rd_num r = Some 1 -> exists m, rd_msg r = Some m /\ response_frame m).
Proof.
  intros Hwf st r.
  assert (Hinv : mailbox_inv st).
  { apply mailbox_inv_run; [exact Hwf|].
    unfold mailbox_inv, initial_state. cbn [has_pending pending_response_len].
    split; [left; reflexivity|]. split; [left; reflexivity|]. discriminate. }
  destruct Hinv as (Hflag & Hlen & Hframe).
  split; [exact Hflag|]. split; [exact Hlen|].
  subst r. intros Hone.
  destruct Hflag as [Hempty|Hfull].
  - rewrite read_nothing in Hone by (left; exact Hempty). discriminate Hone.
  - destruct (Z_lt_le_dec 0 num) as [Hpos|Hzero].
    + rewrite read_pending by (try exact Hpos; lia).
      exists (pending_response st). split; [reflexivity|]. apply Hframe. exact Hfull.
    + rewrite read_nothing in Hone by (right; exact Hzero). discriminate Hone.
Qed.

Lemma reachable_mailbox_holds_response_frames_witness :
  let cs := [CallWrite (Some (request_msg [0x00; 0x00; 0x07; 0xE0; 0x02; 0x3E; 0x00] 7))
                       (Some 1)] in
  let st := run initial_state cs in
  let r := PassThruReadMsgs st (Some memset_zero) (Some 1) in
  rd_num r = Some 1 /\ exists m, rd_msg r = Some m /\ response_frame m.
Proof.
  intros cs st r.
  assert (Hone : rd_num r = Some 1) by reflexivity.
  split; [exact Hone|].
  destruct (reachable_mailbox_holds_response_frames cs memset_zero 1)
    as (_ & _ & Hframe).
  - apply Forall_cons. split; [|apply Forall_nil_2].
    apply wf_request_msg.
    + repeat (apply Forall_cons; split; [unfold is_BYTE; lia|]). apply Forall_nil_2.
    + unfold DATA_LEN. simpl. lia.
    + unfold is_DWORD. lia.
  - exact (Hframe Hone).
Defined.

(** ** The rule table *)

(** The stored response is a function of the service and subfunction
    bytes alone. *)
Lemma write_mailbox_by_rule (st : mock_state) (m : PASSTHRU_MSG) (num : DWORD) :
  num <> 0 -> 6 <= DataSize m ->
  let uds_svc := byte_at (Data m) 5 in
  let uds_sf := byte_at (Data m) 6 in
  mailbox (fst (PassThruWriteMsgs st (Some m) (Some num)))
  = (if uds_svc =? 0x10 then build_can_response [0x02; 0x50; uds_sf] 3
     else if (uds_svc =? 0x27) && (uds_sf =? 0x03)
          then build_can_response [0x04; 0x67; 0x03; 0x12; 0x34] 5
     else if uds_svc =? 0x34 then build_can_response [0x03; 0x74; 0x20; 0x0F] 4
     else build_can_response [0x02; to_BYTE (uds_svc + 0x40); uds_sf] 3,
     sizeof_PASSTHRU_MSG, 1).
Proof.
  intros Hnum Hlen uds_svc uds_sf. subst uds_svc uds_sf.
  destruct (rule_cases m) as [H10|[[H27 H03]|[(H27 & H04 & H8)|[H34|Hun]]]].
  - rewrite write_session by assumption. rewrite H10. reflexivity.
  - rewrite write_requestSeed by assumption. rewrite H27, H03. reflexivity.
  - rewrite write_sendKey by assumption. rewrite H27, H04. reflexivity.
  - rewrite write_download by assumption. rewrite H34. reflexivity.
  - rewrite write_generic by assumption.
    destruct Hun as (N10 & Nseed & _ & N34).
    destruct (Z.eqb_spec (byte_at (Data m) 5) 0x10); [contradiction|].
    destruct (Z.eqb_spec (byte_at (Data m) 5) 0x34); [contradiction|].
    destruct (Z.eqb_spec (byte_at (Data m) 5) 0x27),
      (Z.eqb_spec (byte_at (Data m) 6) 0x03); try reflexivity.
    tauto.
Qed.

(** X8.  Two frames of six bytes or more with the same service byte and
    the same byte at offset 6 leave the same mailbox, whatever the statics
    before each call: the requester's CAN identifier, the length byte, the
    key bytes, the frame length and the other message fields have no
    influence on the response. *)
Theorem response_depends_on_service_and_subfunction_only
    (st st0 : mock_state) (m m0 : PASSTHRU_MSG) (num num0 : DWORD) :
  num <> 0 -> num0 <> 0 -> 6 <= DataSize m -> 6 <= DataSize m0 ->
  byte_at (Data m) 5 = byte_at (Data m0) 5 ->
  byte_at (Data m) 6 = byte_at (Data m0) 6 ->
  mailbox (fst (PassThruWriteMsgs st (Some m) (Some num)))
  = mailbox (fst (PassThruWriteMsgs st0 (Some m0) (Some num0))).
Proof.
  intros Hnum Hnum0 Hlen Hlen0 Hsvc Hsf.
  rewrite !write_mailbox_by_rule by assumption.
  cbv zeta. rewrite Hsvc, Hsf. reflexivity.
Qed.

Lemma response_depends_on_service_and_subfunction_only_witness :
  let m := request_msg [0x00; 0x00; 0x07; 0xE0; 0x02; 0x27; 0x04] 7 in
  let m0 := request_msg [0x00; 0x00; 0x07; 0xDF; 0x04; 0x27; 0x04; 0xAA; 0xBB] 9 in
  let st0 := store [0x02; 0x50; 0x03] 3 initial_state in
  mailbox (fst (PassThruWriteMsgs initial_state (Some m) (Some 1)))
  = mailbox (fst (PassThruWriteMsgs st0 (Some m0) (Some 2))).
Proof.
  intros m m0 st0.
  apply (response_depends_on_service_and_subfunction_only initial_state st0 m m0 1 2).
  - lia.
  - lia.
  - simpl. lia.
  - simpl. lia.
  - reflexivity.
  - reflexivity.
Defined.

(** X9.  DiagnosticSessionControl: any frame of six bytes or more with
    service 0x10 is answered 02 50 followed by the byte at offset 6,
    whatever that byte and the rest of the frame are; the trace gets the
    frame and the session-control entry. *)
Theorem session_control_echoes_subfunction
    (st : mock_state) (m : PASSTHRU_MSG) (num : DWORD) :
  num <> 0 -> 6 <= DataSize m -> byte_at (Data m) 5 = 0x10 ->
  let uds_sf := byte_at (Data m) 6 in
  let st' := fst (PassThruWriteMsgs st (Some m) (Some num)) in
  mailbox st' = (build_can_response [0x02; 0x50; uds_sf] 3, sizeof_PASSTHRU_MSG, 1) /\
  uds_payload_of (pending_response st') = [0x02; 0x50; uds_sf] /\
  trace st'
  = trace st
    ++ [LogBytes TX (DataSize m) (take (Z.to_nat (Z.min (DataSize m) 32)) (Data m));
        LogSessionControl uds_sf].
Proof.
  intros Hnum Hlen Hsvc uds_sf st'. subst st' uds_sf.
  rewrite write_session by assumption. cbn [fst].
  split; [reflexivity|]. split.
  - cbn [pending_response store].
    apply (uds_payload_of_build [0x02; 0x50; byte_at (Data m) 6]).
    unfold DATA_LEN. simpl. lia.
  - rewrite trace_store, trace_log_msg. unfold log_bytes.
    rewrite trace_log_msg, <- app_assoc. reflexivity.
Qed.

Lemma session_control_echoes_subfunction_witness :
  let m := request_msg [0x00; 0x00; 0x07; 0xE0; 0x02; 0x10; 0x92] 7 in
  let st' := fst (PassThruWriteMsgs initial_state (Some m) (Some 1)) in
  mailbox st' = (build_can_response [0x02; 0x50; 0x92] 3, sizeof_PASSTHRU_MSG, 1) /\
  uds_payload_of (pending_response st') = [0x02; 0x50; 0x92] /\
  trace st'
  = [LogBytes TX 7 [0x00; 0x00; 0x07; 0xE0; 0x02; 0x10; 0x92]; LogSessionControl 0x92].
Proof.
  intros m.
  apply (session_control_echoes_subfunction initial_state m 1).
  - lia.
  - simpl. lia.
  - reflexivity.
Defined.

(** X10.  RequestDownload: any frame of six bytes or more with service
    0x34 is answered 03 74 20 0F, whatever follows the service byte; the
    trace gets the frame and the request-download entry. *)
Theorem request_download_fixed_response
    (st : mock_state) (m : PASSTHRU_MSG) (num : DWORD) :
  num <> 0 -> 6 <= DataSize m -> byte_at (Data m) 5 = 0x34 ->
  let st' := fst (PassThruWriteMsgs st (Some m) (Some num)) in
  mailbox st'
  = (build_can_response [0x03; 0x74; 0x20; 0x0F] 4, sizeof_PASSTHRU_MSG, 1) /\
  uds_payload_of (pending_response st') = [0x03; 0x74; 0x20; 0x0F] /\
  DataSize (pending_response st') = 8 /\
  trace st'
  = trace st
    ++ [LogBytes TX (DataSize m) (take (Z.to_nat (Z.min (DataSize m) 32)) (Data m));
        LogRequestDownload].
Proof.
  intros Hnum Hlen Hsvc st'. subst st'.
  rewrite write_download by assumption. cbn [fst].
  split; [reflexivity|]. split; [|split; [reflexivity|]].
  - cbn [pending_response store].
    apply (uds_payload_of_build [0x03; 0x74; 0x20; 0x0F]).
    unfold DATA_LEN. simpl. lia.
  - rewrite trace_store, trace_log_msg. unfold log_bytes.
    rewrite trace_log_msg, <- app_assoc. reflexivity.
Qed.

Lemma request_download_fixed_response_witness :
  let m := request_msg [0x00; 0x00; 0x07; 0xE0; 0x05; 0x34; 0x00; 0x44; 0x00; 0x10] 10 in
  let st' := fst (PassThruWriteMsgs initial_state (Some m) (Some 1)) in
  mailbox st'
  = (build_can_response [0x03; 0x74; 0x20; 0x0F] 4, sizeof_PASSTHRU_MSG, 1) /\
  uds_payload_of (pending_response st') = [0x03; 0x74; 0x20; 0x0F] /\
  DataSize (pending_response st') = 8 /\
  trace st'
  = [LogBytes TX 10 [0x00; 0x00; 0x07; 0xE0; 0x05; 0x34; 0x00; 0x44; 0x00; 0x10];
     LogRequestDownload].
Proof.
  intros m.
  apply (request_download_fixed_response initial_state m 1).
  - lia.
  - simpl. lia.
  - reflexivity.
Defined.

(** X11.  When the sendKey rule runs on a message of the C type, the flag
    it logs beside the reference value 0x3E68 is true exactly when the two
    key bytes are 3E and 68, and false exactly otherwise. *)
Theorem read_formula_flag_true_iff_key_3E68
    (st : mock_state) (m : PASSTHRU_MSG) (num : DWORD) :
  num <> 0 -> wf_msg m -> 8 <= DataSize m ->
  byte_at (Data m) 5 = 0x27 -> byte_at (Data m) 6 = 0x04 ->
  let kh := byte_at (Data m) 7 in
  let kl := byte_at (Data m) 8 in
  let fresh := skipn (length (trace st))
                 (trace (fst (PassThruWriteMsgs st (Some m) (Some num)))) in
  (In (LogReadFormula 0x3E68 true) fresh <-> (kh = 0x3E /\ kl = 0x68)) /\
  (In (LogReadFormula 0x3E68 false) fresh <-> ~ (kh = 0x3E /\ kl = 0x68)).
Proof.
  intros Hnum (_ & _ & Hbytes) Hlen Hsvc Hsf kh kl fresh.
  pose proof (byte_at_is_BYTE (Data m) 7 Hbytes) as Hkh.
  pose proof (byte_at_is_BYTE (Data m) 8 Hbytes) as Hkl.
  fold kh in Hkh. fold kl in Hkl.
  assert (Hfresh : exists shown,
             fresh = [LogBytes TX (DataSize m) shown; LogSendKey;
                      LogWriteSessionKey kh kl (kh * 256 + kl);
                      LogKey16 (kh * 256 + kl);
                      LogReadFormula 0x3E68 (kh * 256 + kl =? 0x3E68)]).
  { eexists. subst fresh.
    rewrite write_sendKey by assumption. cbn [fst]. fold kh kl.
    rewrite (key_of_bytes kh kl) by assumption.
    rewrite trace_store, !trace_log_msg. unfold log_bytes.
    rewrite trace_log_msg, <- !app_assoc.
    rewrite skipn_app, skipn_all, Nat.sub_diag. reflexivity. }
  destruct Hfresh as [shown ->].
  unfold is_BYTE in Hkh, Hkl.
  destruct (Z.eqb_spec (kh * 256 + kl) 0x3E68) as [Heq|Hne]; split; split.
  - intros _. lia.
  - intros _. simpl. tauto.
  - intros H. simpl in H.
    repeat (destruct H as [H|H]; [discriminate H|]). destruct H.
  - intros H. exfalso. apply H. lia.
  - intros H. simpl in H.
    repeat (destruct H as [H|H]; [discriminate H|]). destruct H.
  - intros [Hh Hl]. exfalso. apply Hne. rewrite Hh, Hl. reflexivity.
  - intros _ [Hh Hl]. apply Hne. rewrite Hh, Hl. reflexivity.
  - intros _. simpl. tauto.
Qed.

Lemma read_formula_flag_true_iff_key_3E68_witness :
  let m := request_msg [0x00; 0x00; 0x07; 0xE0; 0x04; 0x27; 0x04; 0x3E; 0x68] 9 in
  let fresh := skipn (length (trace initial_state))
                 (trace (fst (PassThruWriteMsgs initial_state (Some m) (Some 1)))) in
  (In (LogReadFormula 0x3E68 true) fresh
   <-> (byte_at (Data m) 7 = 0x3E /\ byte_at (Data m) 8 = 0x68)) /\
  (In (LogReadFormula 0x3E68 false) fresh
   <-> ~ (byte_at (Data m) 7 = 0x3E /\ byte_at (Data m) 8 = 0x68)).
Proof.
  intros m.
  apply (read_formula_flag_true_iff_key_3E68 initial_state m 1).
  - lia.
  - apply wf_request_msg.
    + repeat (apply Forall_cons; split; [unfold is_BYTE; lia|]). apply Forall_nil_2.
    + unfold DATA_LEN. simpl. lia.
    + unfold is_DWORD. lia.
  - simpl. lia.
  - reflexivity.
  - reflexivity.
Defined.

(** X12.  The request's service can be read off the response: on a
    message of the C type with six bytes or more, the service byte of the
    stored response plus 0xC0, as a byte, is the request's service byte, so
    that two requests answered with the same service byte had the same
    service. *)
Theorem request_service_recoverable_from_response
    (st : mock_state) (m : PASSTHRU_MSG) (num : DWORD) :
  num <> 0 -> wf_msg m -> 6 <= DataSize m ->
  let resp := pending_response (fst (PassThruWriteMsgs st (Some m) (Some num))) in
  byte_at (Data resp) 5 = to_BYTE (byte_at (Data m) 5 + 0x40) /\
  to_BYTE (byte_at (Data resp) 5 + 0xC0) = byte_at (Data m) 5.
Proof.
  intros Hnum (_ & _ & Hbytes) Hlen resp.
  pose proof (byte_at_is_BYTE (Data m) 5 Hbytes) as Hsvc.
  assert (Hresp : byte_at (Data resp) 5 = to_BYTE (byte_at (Data m) 5 + 0x40)).
  { pose proof (write_mailbox_by_rule st m num Hnum Hlen) as Hmb.
    apply (f_equal (fun t => fst (fst t))) in Hmb.
    cbv zeta in Hmb. cbn [mailbox fst] in Hmb. subst resp. rewrite Hmb.
    destruct (Z.eqb_spec (byte_at (Data m) 5) 0x10) as [->|_]; [reflexivity|].
    destruct (Z.eqb_spec (byte_at (Data m) 5) 0x27) as [->|_];
      destruct (Z.eqb_spec (byte_at (Data m) 6) 0x03) as [_|_]; cbn [andb];
      try reflexivity;
      destruct (Z.eqb_spec (byte_at (Data m) 5) 0x34) as [->|_]; reflexivity. }
  split; [exact Hresp|].
  rewrite Hresp. unfold to_BYTE, is_BYTE in *.
  Z.div_mod_to_equations. lia.
Qed.

Lemma request_service_recoverable_from_response_witness :
  let m := request_msg [0x00; 0x00; 0x07; 0xE0; 0x02; 0xC5; 0x01] 7 in
  let resp := pending_response (fst (PassThruWriteMsgs initial_state (Some m) (Some 1))) in
  byte_at (Data resp) 5 = to_BYTE (byte_at (Data m) 5 + 0x40) /\
  to_BYTE (byte_at (Data resp) 5 + 0xC0) = byte_at (Data m) 5.
Proof.
  intros m.
  apply (request_service_recoverable_from_response initial_state m 1).
  - lia.
  - apply wf_request_msg.
    + repeat (apply Forall_cons; split; [unfold is_BYTE; lia|]). apply Forall_nil_2.
    + unfold DATA_LEN. simpl. lia.
    + unfold is_DWORD. lia.
  - simpl. lia.
Defined.

(** One exchange from any statics: the write overwrites what was pending,
    the read hands out the answer to this request and empties the mailbox. *)
Lemma exchange_step (st : mock_state) (m buf : PASSTHRU_MSG) :
  6 <= DataSize m ->
  let st1 := fst (PassThruWriteMsgs st (Some m) (Some 1)) in
  let r := PassThruReadMsgs st1 (Some buf) (Some 1) in
  rd_num r = Some 1 /\ rd_msg r = Some (response_to m) /\ has_pending (rd_state r) = 0.
Proof.
  intros Hlen st1 r.
  assert (Hmb : mailbox st1
                = mailbox (fst (PassThruWriteMsgs initial_state (Some m) (Some 1)))).
  { apply write_overwrites_pending; [discriminate|exact Hlen]. }
  assert (Hflag : has_pending st1 = 1).
  { subst st1. rewrite has_pending_after_write. cbn [accepted].
    destruct (Z.leb_spec 6 (DataSize m)); [reflexivity|lia]. }
  assert (Hpend : pending_response st1 = response_to m).
  { unfold response_to. unfold mailbox in Hmb. congruence. }
  subst r. rewrite read_pending by (rewrite ?Hflag; lia).
  cbn [rd_num rd_msg rd_state clear_pending has_pending].
  rewrite Hpend. repeat split.
Qed.

Lemma handed_out_exchanges (xs : list (PASSTHRU_MSG * PASSTHRU_MSG)) (st : mock_state) :
  Forall (fun x => 6 <= DataSize (fst x)) xs ->
  handed_out st (exchanges xs) = map (fun x => response_to (fst x)) xs.
Proof.
  revert st. induction xs as [|[m buf] xs IH]; intros st Hall.
  - reflexivity.
  - apply Forall_cons in Hall as [Hlen Hall]. cbn [fst] in Hlen.
    destruct (exchange_step st m buf Hlen) as (Hnum & Hmsg & _).
    cbn [exchanges handed_out step delivered map fst app].
    unfold DWORD in *. rewrite Hnum, Hmsg. cbn [option_list app]. simpl (1 =? 1).
    cbn iota. cbn [app]. f_equal. apply IH. exact Hall.
Qed.

(** X13.  In a dialogue, where each request of six bytes or more is
    written and read back at once with a count of one, every request is
    answered: the reads hand out one message per request, in the order of
    the requests, and each is the answer that request gets on its own; the
    statics before the dialogue do not matter. *)
Theorem dialogue_answers_every_request_in_order
    (xs : list (PASSTHRU_MSG * PASSTHRU_MSG)) (st : mock_state) :
  Forall (fun x => 6 <= DataSize (fst x)) xs ->
  handed_out st (exchanges xs) = map (fun x => response_to (fst x)) xs /\
  length (handed_out st (exchanges xs)) = length xs.
Proof.
  intros Hall.
  pose proof (handed_out_exchanges xs st Hall) as Hout.
  split; [exact Hout|]. rewrite Hout. apply length_map.
Qed.

Lemma dialogue_answers_every_request_in_order_witness :
  let seed := request_msg [0x00; 0x00; 0x07; 0xE0; 0x02; 0x27; 0x03] 7 in
  let key := request_msg [0x00; 0x00; 0x07; 0xE0; 0x04; 0x27; 0x04; 0xAA; 0xBB] 9 in
  let xs := [(seed, memset_zero); (key, memset_zero)] in
  let st := store [0x02; 0x50; 0x03] 3 initial_state in
  handed_out st (exchanges xs) = map (fun x => response_to (fst x)) xs /\
  length (handed_out st (exchanges xs)) = length xs.
Proof.
  intros seed key xs st.
  apply (dialogue_answers_every_request_in_order xs st).
  apply Forall_cons. split; [simpl; lia|].
  apply Forall_cons. split; [simpl; lia|].
  apply Forall_nil_2.
Defined.
